(** * Dashboard page of zipline: byte formatting, statistics, pagination, refresh

    A shallow embedding of [src/components/pages/Dashboard.tsx].

    - JavaScript numbers are IEEE 754 binary64 values, modelled by the
      Standard Library's [spec_float] with [prec = 53] and [emax = 1024].
    - [Number.prototype.toFixed] and the number-to-string conversion of
      template literals follow ECMA-262 (exact arithmetic on the value of
      the double, done on [Z] and [Q]).
    - The component's state is a record of its five [useState] slots; the
      asynchronous handlers are programs of a small free monad whose
      interpreter threads the state and an event trace. *)

From Stdlib Require Import ZArith QArith Qround Qpower List String Ascii Bool Lia.
From Stdlib Require Import Floats.SpecFloat DecimalString.
Import ListNotations.

Local Open Scope string_scope.
Local Open Scope Z_scope.

(** ** JavaScript numbers *)

Module JSNumber.

Definition prec : Z := 53.
Definition emax : Z := 1024.

Definition number : Type := spec_float.

(** The Number value of an integer literal. *)
Definition of_Z (z : Z) : number := binary_normalize prec emax z 0 false.

Definition NaN : number := S754_nan.
Definition Infinity : number := S754_infinity false.
Definition NegInfinity : number := S754_infinity true.

(** [x / y] *)
Definition div (x y : number) : number := SFdiv prec emax x y.

(** [x > y] *)
Definition gt (x y : number) : bool := SFltb y x.

(** [x === y] on numbers: NaN differs from itself, the two zeros are equal. *)
Definition strict_eq (x y : number) : bool := SFeqb x y.

(** The global [isNaN] on a number. *)
Definition isNaN (x : number) : bool :=
  match x with S754_nan => true | _ => false end.

Definition is_finite (x : number) : bool :=
  match x with S754_zero _ | S754_finite _ _ _ => true | _ => false end.

(** Doubles in canonical form (what every operation returns). *)
Definition valid (x : number) : bool := valid_binary prec emax x.

(** *** Decimal digits *)

Definition digits_of_Z (n : Z) : string :=
  NilZero.string_of_uint (N.to_uint (Z.to_N n)).

Fixpoint zeros (n : nat) : string :=
  match n with
  | O => ""
  | S n' => String "0" (zeros n')
  end.

(** *** The exact value of a finite double *)

Definition pow2 (e : Z) : Q := Qpower (2 # 1) e.
Definition pow10 (e : Z) : Q := Qpower (10 # 1) e.

Definition value_Q (m : positive) (e : Z) : Q := (inject_Z (Zpos m) * pow2 e)%Q.

Definition Qltb (a b : Q) : bool := negb (Qle_bool b a).

(** *** Number::toString, radix 10 (ECMA-262, 6.1.6.1.20) *)

(** [rounds_to m e v]: the Number value for the real [v > 0] is the double
    [m * 2^e], that is, [v] lies between the midpoints to the two
    neighbouring doubles; a midpoint belongs to the neighbour whose
    significand is even. *)
Definition rounds_to (m : positive) (e : Z) (v : Q) : bool :=
  let lo :=
    if andb (Pos.eqb m (2 ^ 52)) (-1074 <? e)
    then (inject_Z (4 * Zpos m - 1) * pow2 (e - 2))%Q
    else (inject_Z (2 * Zpos m - 1) * pow2 (e - 1))%Q in
  let hi := (inject_Z (2 * Zpos m + 1) * pow2 (e - 1))%Q in
  if Z.even (Zpos m)
  then andb (Qle_bool lo v) (Qle_bool v hi)
  else andb (Qltb lo v) (Qltb v hi).

(** The [n] with [10^(n-1) <= x < 10^n]. *)
Definition decimal_exponent (x : Q) : Z :=
  match find (fun n => Qltb x (pow10 n))
             (map (fun i => Z.of_nat i - 330) (seq 0 660)) with
  | Some n => n
  | None => 0
  end.

(** The candidates [(s, n)] with [k] digits next to [x]: the two
    integers around [x / 10^(n0-k)], the nearer one first (the even one
    when both are as near). *)
Definition candidates (x : Q) (n0 k : Z) : list (Z * Z) :=
  let t := (x / pow10 (n0 - k))%Q in
  let f := Qfloor t in
  let up := if f + 1 <? 10 ^ k then (f + 1, n0) else (10 ^ (k - 1), n0 + 1) in
  let down := (f, n0) in
  let dlo := (t - inject_Z f)%Q in
  let dhi := (inject_Z (f + 1) - t)%Q in
  let below := if 10 ^ (k - 1) <=? f then [down] else [] in
  if Qltb dhi dlo then up :: below
  else if Qltb dlo dhi then below ++ [up]
  else if Z.even f then below ++ [up] else up :: below.

(** The shortest digit string [s] (with [k] digits) and the exponent [n]
    such that [s * 10^(n-k)] rounds to the double. *)
Definition shortest (m : positive) (e : Z) : Z * Z * Z :=
  let x := value_Q m e in
  let n0 := decimal_exponent x in
  let try (k : Z) : option (Z * Z * Z) :=
    match find (fun c => rounds_to m e (inject_Z (fst c) * pow10 (snd c - k))%Q)
               (candidates x n0 k) with
    | Some (s, n) => Some (k, s, n)
    | None => None
    end in
  let fix search (ks : list Z) : Z * Z * Z :=
    match ks with
    | [] => (1, 0, 0)
    | k :: ks' => match try k with Some r => r | None => search ks' end
    end in
  search (map Z.of_nat (seq 1 21)).

Definition to_string_pos (m : positive) (e : Z) : string :=
  let '(k, s, n) := shortest m e in
  let ds := digits_of_Z s in
  if andb (-5 <=? n) (n <=? 21) then
    if k <=? n then ds ++ zeros (Z.to_nat (n - k))
    else if 0 <? n then
      substring 0 (Z.to_nat n) ds ++ "." ++
      substring (Z.to_nat n) (Z.to_nat (k - n)) ds
    else "0." ++ zeros (Z.to_nat (- n)) ++ ds
  else
    let ex := n - 1 in
    let sign := if ex <? 0 then "-" else "+" in
    let mant :=
      if k =? 1 then ds
      else substring 0 1 ds ++ "." ++ substring 1 (Z.to_nat (k - 1)) ds in
    mant ++ "e" ++ sign ++ digits_of_Z (Z.abs ex).

Definition to_string (x : number) : string :=
  match x with
  | S754_nan => "NaN"
  | S754_zero _ => "0"
  | S754_infinity false => "Infinity"
  | S754_infinity true => "-Infinity"
  | S754_finite false m e => to_string_pos m e
  | S754_finite true m e => "-" ++ to_string_pos m e
  end.

(** *** Number.prototype.toFixed (ECMA-262, 21.1.3.3) *)

(** The integer [n] for which [n / 10^f - m * 2^e] is as close to zero as
    possible, the larger one when there are two. *)
Definition nearest_scaled (m : positive) (e : Z) (f : nat) : Z :=
  Qfloor (value_Q m e * pow10 (Z.of_nat f) + (1 # 2))%Q.

(** Steps 11.a-11.d for the integer [n] and [f] fraction digits. *)
Definition fixed_digits (n : Z) (f : nat) : string :=
  let m := digits_of_Z n in
  match f with
  | O => m
  | _ =>
    let k := String.length m in
    let m' := if (k <=? f)%nat then zeros (f + 1 - k) ++ m else m in
    let k' := String.length m' in
    substring 0 (k' - f) m' ++ "." ++ substring (k' - f) f m'
  end.

(** [x.toFixed(f)] for [0 <= f <= 100]. *)
Definition toFixed (x : number) (f : nat) : string :=
  match x with
  | S754_nan | S754_infinity _ => to_string x
  | S754_zero _ => fixed_digits 0 f
  | S754_finite s m e =>
    let sign := if s then "-" else "" in
    if Qle_bool (pow10 21) (value_Q m e)
    then sign ++ to_string_pos m e
    else sign ++ fixed_digits (nearest_scaled m e f) f
  end.

End JSNumber.

Import JSNumber.

(** ** The byte-size formatter ([bytesToRead], lines 28-40) *)

Definition units : list string := ["B"; "kB"; "MB"; "GB"; "TB"; "PB"].

(** [`${v}`] for the result of an array lookup: an index past the end
    yields [undefined], printed as such. *)
Definition show_lookup (v : option string) : string :=
  match v with
  | Some u => u
  | None => "undefined"
  end.

(** The loop [while (bytes > 1024) { bytes /= 1024; ++num; }].  Fuel is
    only spent on an iteration; [None] stands for fuel running out. *)
Fixpoint divide_loop (fuel : nat) (bytes : number) (num : nat)
  : option (number * nat) :=
  if gt bytes (of_Z 1024) then
    match fuel with
    | O => None
    | S fuel' => divide_loop fuel' (div bytes (of_Z 1024)) (S num)
    end
  else Some (bytes, num).

Definition bytesToRead_fuel (fuel : nat) (bytes : number) : option string :=
  if isNaN bytes then Some "0.0 B"
  else if strict_eq bytes Infinity then Some "0.0 B"
  else
    match divide_loop fuel bytes 0 with
    | Some (bytes', num) =>
      Some (toFixed bytes' 1 ++ " " ++ show_lookup (nth_error units num))
    | None => None
    end.

(** Every double is below [2^1024], and each iteration divides by [2^10]:
    the loop runs at most 102 times (see [divide_loop_terminates]). *)
Definition loop_bound : nat := 128.

Definition bytesToRead (bytes : number) : option string :=
  bytesToRead_fuel loop_bound bytes.

(** ** Records received from the API *)

Record FileRecord := {
  id : Z;
  file : string;
  mimetype : string;
  created_at : string;
  url : string;
  size : number
}.

Record StatsSummary := {
  stats_size : string;
  size_num : number;
  count : number;
  count_users : number;
  views_count : number;
  count_by_user : list (string * number);
  types_count : list (string * number)
}.

(** ** The statistics cards (lines 152-173) *)

(** What a [StatText] shows: a text, or the placeholder while [stats] is
    [null]. *)
Inductive stat_text :=
| Text (s : string)
| Skeleton.

(** Line 158: [stats ? bytesToRead(stats.size_num / stats.count) : <Skeleton/>].
    [None] only if the formatter's loop ran out of fuel. *)
Definition average_size_text (stats : option StatsSummary) : option stat_text :=
  match stats with
  | Some st =>
    match bytesToRead (div (size_num st) (count st)) with
    | Some s => Some (Text s)
    | None => None
    end
  | None => Some Skeleton
  end.

(** The expression inside the parentheses of line 165. *)
Definition views_ratio (st : StatsSummary) : string :=
  if isNaN (div (views_count st) (count st)) then "0"
  else to_string (div (views_count st) (count st)).

(** Line 165: [`${stats.views_count} (${isNaN(r) ? '0' : r})`], with
    [r = stats.views_count / stats.count]. *)
Definition views_text (stats : option StatsSummary) : stat_text :=
  match stats with
  | Some st =>
    Text (to_string (views_count st) ++ " (" ++ views_ratio st ++ ")")
  | None => Skeleton
  end.

(** ** Component state (lines 92-96) *)

Record State := {
  images : list FileRecord;
  recent : list FileRecord;
  page : Z;
  stats : option StatsSummary;
  rowsPerPage : Z
}.

Definition initial_state : State :=
  {| images := []; recent := []; page := 0; stats := None; rowsPerPage := 10 |}.

(** A call of one of the five state setters. *)
Inductive update :=
| SetImages (v : list FileRecord)
| SetRecent (v : list FileRecord)
| SetPage (v : Z)
| SetStats (v : StatsSummary)
| SetRowsPerPage (v : Z).

Definition apply_update (u : update) (s : State) : State :=
  match u with
  | SetImages v =>
    {| images := v; recent := recent s; page := page s;
       stats := stats s; rowsPerPage := rowsPerPage s |}
  | SetRecent v =>
    {| images := images s; recent := v; page := page s;
       stats := stats s; rowsPerPage := rowsPerPage s |}
  | SetPage v =>
    {| images := images s; recent := recent s; page := v;
       stats := stats s; rowsPerPage := rowsPerPage s |}
  | SetStats v =>
    {| images := images s; recent := recent s; page := page s;
       stats := Some v; rowsPerPage := rowsPerPage s |}
  | SetRowsPerPage v =>
    {| images := images s; recent := recent s; page := page s;
       stats := stats s; rowsPerPage := v |}
  end.

(** ** The fetch capability

    [useFetch(path, method?, body?)] is imported from [lib/hooks/useFetch]:
    an opaque capability that answers a request or throws.  The four calls
    of this page are typed by the answer of their endpoint. *)

Inductive method := GET | DELETE.

Record request := {
  path : string;
  meth : method;
  body_id : option Z
}.

Record DeleteResponse := { error : option string }.

Inductive api : Type -> Type :=
| UserFiles : api (list FileRecord)
| UserRecent : api (list FileRecord)
| GlobalStats : api StatsSummary
| DeleteFile (i : Z) : api DeleteResponse.

(** Modelled from the spec: the method of a call of [useFetch] that passes
    none.  The helper is in [lib/hooks/useFetch], which is not part of the
    sources at hand; section 6 of the specification lists the three calls
    that pass only a path as GET requests. *)
Definition default_method : method := GET.

(** The arguments each call passes to [useFetch]: the three reads
    (lines 99-101) pass a path only, the delete (line 117) a path, the
    method and a body holding the identifier. *)
Definition wire {T : Type} (c : api T) : request :=
  match c with
  | UserFiles =>
    {| path := "/api/user/files"; meth := default_method; body_id := None |}
  | UserRecent =>
    {| path := "/api/user/recent?filter=media"; meth := default_method;
       body_id := None |}
  | GlobalStats =>
    {| path := "/api/stats"; meth := default_method; body_id := None |}
  | DeleteFile i =>
    {| path := "/api/user/files"; meth := DELETE; body_id := Some i |}
  end.

(** What an execution does, in order. *)
Inductive event :=
| Requested (r : request)
| Resolved (r : request)
| Rejected (r : request)
| Updated (u : update).

(** The environment answers a call, knowing all that happened before it;
    [None] is a rejected promise (the call throws at its [await]). *)
Definition environment : Type := forall T : Type, list event -> api T -> option T.

(** ** Asynchronous handlers *)

(** The body of an [async] arrow function of this component. *)
Inductive prog : Type :=
| Done
| Await {T : Type} (c : api T) (k : T -> prog)
| Update (u : update) (k : prog)
| Call (p : prog) (k : prog).

Inductive outcome := Fulfilled | Thrown.

Record world := { st : State; log : list event }.

Definition record (e : event) (w : world) : world :=
  {| st := st w; log := log w ++ [e] |}.

(** [Call p k] is a call whose promise is dropped: a rejection of [p] does
    not reach the caller.  The callee runs to its end before [k]; in this
    component [k] is always [Done]. *)
Fixpoint run (env : environment) (p : prog) (w : world) : outcome * world :=
  match p with
  | Done => (Fulfilled, w)
  | Await c k =>
    let w1 := record (Requested (wire c)) w in
    match env _ (log w) c with
    | Some v => run env (k v) (record (Resolved (wire c)) w1)
    | None => (Thrown, record (Rejected (wire c)) w1)
    end
  | Update u k =>
    run env k {| st := apply_update u (st w); log := log w ++ [Updated u] |}
  | Call p' k => run env k (snd (run env p' w))
  end.

(** An execution from state [s] with an empty history. *)
Definition exec (env : environment) (p : prog) (s : State) : outcome * world :=
  run env p {| st := s; log := [] |}.

(** Lines 98-105. *)
Definition updateImages : prog :=
  Await UserFiles (fun imgs =>
  Await UserRecent (fun recent =>
  Await GlobalStats (fun stts =>
  Update (SetImages imgs)
  (Update (SetStats stts)
  (Update (SetRecent recent)
   Done))))).

(** Lines 107-109. *)
Definition handleChangePage (newPage : Z) : prog :=
  Update (SetPage newPage) Done.

(** The change event of the page-size selector; [target_value] is the
    number [+event.target.value]. *)
Record ChangeEvent := { target_value : Z }.

(** Lines 111-114. *)
Definition handleChangeRowsPerPage (event : ChangeEvent) : prog :=
  Update (SetRowsPerPage (target_value event))
  (Update (SetPage 0)
   Done).

(** [ToBoolean] of [res.error], a string or [undefined]. *)
Definition to_boolean (v : option string) : bool :=
  match v with
  | None => false
  | Some "" => false
  | Some _ => true
  end.

(** Lines 116-119. *)
Definition handleDelete (image : FileRecord) : prog :=
  Await (DeleteFile (id image)) (fun res =>
  if negb (to_boolean (error res)) then Call updateImages Done else Done).

(** Lines 121-123: the effect run once on first display. *)
Definition on_mount : prog := Call updateImages Done.

(** ** The paginated table (lines 195-196) *)

(** [Array.prototype.slice(start, end)] on integer arguments. *)
Definition slice {A : Type} (l : list A) (start end_ : Z) : list A :=
  let len := Z.of_nat (List.length l) in
  let k := if start <? 0 then Z.max (len + start) 0 else Z.min start len in
  let final := if end_ <? 0 then Z.max (len + end_) 0 else Z.min end_ len in
  firstn (Z.to_nat (final - k)) (skipn (Z.to_nat k) l).

(** The records of the rows of the table body. *)
Definition visible_rows (s : State) : list FileRecord :=
  slice (images s) (page s * rowsPerPage s)
        (page s * rowsPerPage s + rowsPerPage s).

(** The window [L[p*s : p*s+s]] as the specification words it: at most
    [s] elements from position [p*s] on. *)
Definition window {A : Type} (L : list A) (p s : nat) : list A :=
  firstn s (skipn (p * s) L).

(** ** The rest of the page (lines 58-87 and 125-246) *)

(** Line 128: [images.length ? images.length : '...']. *)
Definition images_count_text (s : State) : string :=
  match List.length (images s) with
  | O => "..."
  | n => to_string (of_Z (Z.of_nat n))
  end.

(** [str.split('/')[0]]: what stands before the first slash, the whole
    string when there is none. *)
Fixpoint before_slash (s : string) : string :=
  match s with
  | EmptyString => EmptyString
  | String c r =>
    if Ascii.eqb c "/" then EmptyString else String c (before_slash r)
  end.

(** No slash in the string. *)
Fixpoint slash_free (s : string) : bool :=
  match s with
  | EmptyString => true
  | String c r => negb (Ascii.eqb c "/") && slash_free r
  end.

(** The [component] of a [CardMedia]: the audio icon, or an element named
    by a string. *)
Inductive media_component :=
| AudioIcon
| Tag (name : string).

(** Line 141. *)
Definition card_component (image : FileRecord) : media_component :=
  if String.eqb (before_slash (mimetype image)) "audio" then AudioIcon
  else Tag (before_slash (mimetype image)).

(** One item of the grid of lines 131-151: the card of a recent file, or
    a placeholder. *)
Inductive grid_item :=
| MediaCard (key : Z) (image title : string) (component : media_component)
| SkeletonBox (key : Z).

Definition recent_grid (s : State) : list grid_item :=
  match recent s with
  | [] => map SkeletonBox [1; 2; 3; 4]
  | l => map (fun image => MediaCard (id image) (url image) (file image)
                                     (card_component image)) l
  end.

(** Lines 156, 163 and 170: the three plain statistics. *)
Definition size_text (stats : option StatsSummary) : stat_text :=
  match stats with
  | Some st => Text (stats_size st)
  | None => Skeleton
  end.

Definition count_text (stats : option StatsSummary) : stat_text :=
  match stats with
  | Some st => Text (to_string (count st))
  | None => Skeleton
  end.

Definition users_text (stats : option StatsSummary) : stat_text :=
  match stats with
  | Some st => Text (to_string (count_users st))
  | None => Skeleton
  end.

(** The Delete button of row [i] of the table body (line 210):
    [onClick={() => handleDelete(row)}]; no program when there is no such
    row. *)
Definition click_delete (s : State) (i : nat) : option prog :=
  match nth_error (visible_rows s) i with
  | Some row => Some (handleDelete row)
  | None => None
  end.

(** *** The generic table of lines 58-87 *)

(** A value read from a row object: a string or a number of its own, or
    the member of that name inherited from [Object.prototype]. *)
Inductive cell_value :=
| VString (s : string)
| VNumber (n : number)
| VInherited (name : string).

(** A row object, by its own keys. *)
Definition row_object : Type := list (string * cell_value).

(** The own property of a row under [key]. *)
Fixpoint own_key (key : string) (row : row_object) : option cell_value :=
  match row with
  | [] => None
  | (k, v) :: rest => if String.eqb k key then Some v else own_key key rest
  end.

(** The property names of [Object.prototype] (ECMA-262, 20.1.3 and
    annex B.2.2), which every row object parsed from JSON inherits. *)
Definition object_prototype_keys : list string :=
  ["constructor"; "hasOwnProperty"; "isPrototypeOf"; "propertyIsEnumerable";
   "toLocaleString"; "toString"; "valueOf"; "__proto__";
   "__defineGetter__"; "__defineSetter__"; "__lookupGetter__";
   "__lookupSetter__"].

(** [row[key]]: the own property if there is one, else the inherited one,
    else [None] for [undefined]. *)
Definition get_key (key : string) (row : row_object) : option cell_value :=
  match own_key key row with
  | Some v => Some v
  | None =>
    if existsb (String.eqb key) object_prototype_keys
    then Some (VInherited key) else None
  end.

Record column := {
  col_id : string;
  col_name : string;
  col_format : option (option cell_value -> option cell_value)
}.

(** Line 78: [col.format ? col.format(row[col.id]) : row[col.id]]. *)
Definition cell (row : row_object) (col : column) : option cell_value :=
  match col_format col with
  | Some f => f (get_key (col_id col) row)
  | None => get_key (col_id col) row
  end.

Record table := {
  head : list string;
  body : list (list (option cell_value))
}.

Definition StatTable (rows : list row_object) (columns : list column) : table :=
  {| head := map col_name columns;
     body := map (fun row => map (cell row) columns) rows |}.

(** The objects of [stats.count_by_user] and [stats.types_count]. *)
Definition user_row (r : string * number) : row_object :=
  [("username", VString (fst r)); ("count", VNumber (snd r))].

Definition type_row (r : string * number) : row_object :=
  [("mimetype", VString (fst r)); ("count", VNumber (snd r))].

(** Lines 229-234. *)
Definition users_table (stats : option StatsSummary) : table :=
  StatTable
    (match stats with Some st => map user_row (count_by_user st) | None => [] end)
    [ {| col_id := "username"; col_name := "Name"; col_format := None |};
      {| col_id := "count"; col_name := "Images"; col_format := None |} ].

(** Lines 237-242. *)
Definition types_table (stats : option StatsSummary) : table :=
  StatTable
    (match stats with Some st => map type_row (types_count st) | None => [] end)
    [ {| col_id := "mimetype"; col_name := "Type"; col_format := None |};
      {| col_id := "count"; col_name := "Count"; col_format := None |} ].

(** The state with the pagination cursor at page [p]. *)
Definition at_page (s : State) (p : Z) : State := apply_update (SetPage p) s.

(** The number of pages that hold a row, for [n] rows per page. *)
Definition page_count (len n : nat) : nat := (len + n - 1) / n.

(** ** Requests and observations *)

Definition files_req : request := wire UserFiles.
Definition recent_req : request := wire UserRecent.
Definition stats_req : request := wire GlobalStats.

(** The request of the delete action for a record. *)
Definition delete_req (image : FileRecord) : request :=
  {| path := "/api/user/files"; meth := DELETE; body_id := Some (id image) |}.


(** The refresh was started: its first request is in the trace. *)
Definition refresh_invoked (tr : list event) : Prop :=
  In (Requested files_req) tr.

(** ** Sample data *)

(** An environment that gives the same answer to a call each time. *)
Definition constant_env (files rec : option (list FileRecord))
           (stts : option StatsSummary) (del : option DeleteResponse)
  : environment :=
  fun T _ c =>
    match c in api T return option T with
    | UserFiles => files
    | UserRecent => rec
    | GlobalStats => stts
    | DeleteFile _ => del
    end.

Definition sample_file (i : nat) : FileRecord :=
  {| id := Z.of_nat i; file := "a.png"; mimetype := "image/png";
     created_at := "2021-09-01T00:00:00.000Z"; url := "/u/a.png";
     size := of_Z 2048 |}.

Definition sample_files (n : nat) : list FileRecord := map sample_file (seq 0 n).

Definition sample_stats : StatsSummary :=
  {| stats_size := "46.0 kB"; size_num := of_Z 47104; count := of_Z 23;
     count_users := of_Z 1; views_count := of_Z 5;
     count_by_user := [("administrator", of_Z 23)];
     types_count := [("image/png", of_Z 23)] |}.

(** ** Checks decided by computation *)

(** What the formatter has to show for the integer [b]. *)
Definition small_ok (b : Z) : bool :=
  negb (isNaN (of_Z b)) && negb (strict_eq (of_Z b) Infinity) &&
  negb (gt (of_Z b) (of_Z 1024)) &&
  String.eqb (toFixed (of_Z b) 1 ++ " " ++ show_lookup (nth_error units 0))
             (digits_of_Z b ++ ".0 B").

(** * Properties *)

(** ** Number printing agrees with JavaScript on sample values *)

Example to_string_samples :
  map to_string
      [of_Z 5; of_Z (-17); div (of_Z 1) (of_Z 10); div (of_Z 1) (of_Z 3);
       div (of_Z 3) (of_Z 2); of_Z (10 ^ 21); of_Z (2 ^ 70);
       S754_finite false 1 (-1074); div (of_Z 1) (of_Z 10000000)]
  = ["5"; "-17"; "0.1"; "0.3333333333333333"; "1.5"; "1e+21";
     "1.1805916207174113e+21"; "5e-324"; "1e-7"].
Proof. vm_compute. reflexivity. Qed.

Example toFixed_samples :
  map (fun x => toFixed x 1)
      [of_Z 0; S754_zero true; of_Z 1024; of_Z (-3); div (of_Z 1) (of_Z 4);
       div (of_Z 15) (of_Z 100); div (of_Z (-1)) (of_Z 100); of_Z (- 10 ^ 22);
       NaN; NegInfinity]
  = ["0.0"; "0.0"; "1024.0"; "-3.0"; "0.3"; "0.1"; "-0.0"; "-1e+22";
     "NaN"; "-Infinity"].
Proof. vm_compute. reflexivity. Qed.

Example bytesToRead_samples :
  map bytesToRead
      [of_Z 1025; of_Z 1536; of_Z 1048576; of_Z 1048577; of_Z (2 ^ 60);
       of_Z (-5000)]
  = [Some "1.0 kB"; Some "1.5 kB"; Some "1024.0 kB"; Some "1.0 MB";
     Some "1024.0 PB"; Some "-5000.0 B"].
Proof. vm_compute. reflexivity. Qed.

(** ** The division loop *)

Ltac fexp_lia := unfold fexp, emin, prec, emax; lia.

Lemma div_eucl_mul_exact (a b : Z) : 0 < b -> Z.div_eucl (a * b) b = (a, 0).
Proof.
  intros Hb.
  pose proof (Z.div_mul a b ltac:(lia)) as Hq.
  pose proof (Z.mod_mul a b ltac:(lia)) as Hr.
  unfold Z.div, Z.modulo in Hq, Hr.
  destruct (Z.div_eucl (a * b) b) as [q r]. congruence.
Qed.

(** Dividing a normal double of exponent at least [-42] by [1024] only
    lowers its exponent by ten: the quotient is exact. *)
Lemma div_1024_exact (m : positive) (e : Z) :
  digits2_pos m = 53%positive -> -42 <= e <= 971 ->
  div (S754_finite false m e) (of_Z 1024) = S754_finite false m (e - 10).
Proof.
  intros Hd He.
  change (of_Z 1024) with (S754_finite false (2 ^ 52) (-42)).
  unfold div, SFdiv, SFdiv_core_binary.
  cbn [Zdigits2]. rewrite Hd.
  change (digits2_pos (2 ^ 52)) with 53%positive.
  replace (Z.min (fexp prec emax (53 + e - (53 + -42))) (e - -42))
    with (e - 11) by fexp_lia.
  replace (e - -42 - (e - 11)) with 53 by lia.
  rewrite Z.shiftl_mul_pow2 by lia.
  replace (Z.pos m * 2 ^ 53) with (Z.pos m~0 * Z.pos (2 ^ 52)) by lia.
  rewrite div_eucl_mul_exact by lia.
  cbn [xorb]. change (new_location (Z.pos (2 ^ 52)) 0) with loc_Exact.
  unfold binary_round_aux, shr_fexp. cbn [Zdigits2 digits2_pos]. rewrite Hd.
  replace (fexp prec emax (Z.pos (Pos.succ 53) + (e - 11)) - (e - 11)) with 1
    by fexp_lia.
  cbn [shr shr_record_of_loc iter_pos shr_1 shr_m loc_of_shr_record
       round_nearest_even Zdigits2 orb].
  rewrite Hd.
  replace (fexp prec emax (53 + (e - 11 + 1)) - (e - 11 + 1)) with 0
    by fexp_lia.
  cbn [shr shr_m shr_record_of_loc].
  replace (e - 11 + 1) with (e - 10) by lia.
  replace (e - 10 <=? emax - prec) with true
    by (symmetry; apply Z.leb_le; unfold emax, prec; lia).
  reflexivity.
Qed.

(** A positive double above [1024] has exponent at least [-42]. *)
Lemma gt_1024_exponent (m : positive) (e : Z) :
  gt (S754_finite false m e) (of_Z 1024) = true -> -42 <= e.
Proof.
  change (of_Z 1024) with (S754_finite false (2 ^ 52) (-42)).
  unfold gt, SFltb, SFcompare.
  destruct (Z.compare_spec (-42) e); try lia; discriminate.
Qed.

Lemma bounded_normal (m : positive) (e : Z) :
  bounded prec emax m e = true -> -42 <= e ->
  digits2_pos m = 53%positive /\ e <= 971.
Proof.
  unfold bounded, canonical_mantissa. intros H He.
  apply andb_prop in H as [Hc Hb].
  apply Z.eqb_eq in Hc. apply Z.leb_le in Hb.
  unfold fexp, emin, prec, emax in *. split; lia.
Qed.

Lemma bounded_shift (m : positive) (e : Z) :
  digits2_pos m = 53%positive -> -42 <= e <= 971 ->
  bounded prec emax m (e - 10) = true.
Proof.
  intros Hd He. unfold bounded, canonical_mantissa. rewrite Hd.
  apply andb_true_intro; split.
  - apply Z.eqb_eq. fexp_lia.
  - apply Z.leb_le. unfold emax, prec. lia.
Qed.

(** On a positive double the loop divides [k] times exactly, and stops at
    the first value that is not above [1024]. *)
Lemma divide_loop_finite (fuel : nat) :
  forall (m : positive) (e : Z) (num : nat),
    bounded prec emax m e = true ->
    e + 42 < 10 * Z.of_nat fuel ->
    exists k : nat,
      divide_loop fuel (S754_finite false m e) num
      = Some (S754_finite false m (e - 10 * Z.of_nat k), (num + k)%nat) /\
      gt (S754_finite false m (e - 10 * Z.of_nat k)) (of_Z 1024) = false.
Proof.
  induction fuel as [|fuel IH]; intros m e num Hb Hfuel.
  - exists 0%nat. cbn [divide_loop].
    destruct (gt (S754_finite false m e) (of_Z 1024)) eqn:Hgt.
    + apply gt_1024_exponent in Hgt. lia.
    + rewrite Z.mul_0_r, Z.sub_0_r, Nat.add_0_r. rewrite Hgt. auto.
  - cbn [divide_loop].
    destruct (gt (S754_finite false m e) (of_Z 1024)) eqn:Hgt.
    + pose proof (gt_1024_exponent _ _ Hgt) as He.
      destruct (bounded_normal _ _ Hb He) as [Hd Hmax].
      rewrite div_1024_exact by (auto; lia).
      destruct (IH m (e - 10) (S num)) as [k [Hk Hstop]].
      * apply bounded_shift; auto; lia.
      * lia.
      * exists (S k). rewrite Hk.
        replace (e - 10 - 10 * Z.of_nat k) with (e - 10 * Z.of_nat (S k)) in * by lia.
        replace (S num + k)%nat with (num + S k)%nat by lia. auto.
    + exists 0%nat.
      rewrite Z.mul_0_r, Z.sub_0_r, Nat.add_0_r. rewrite Hgt. auto.
Qed.

(** The loop ends within [loop_bound] iterations on every double but
    [Infinity], which the formatter never hands to it. *)
Lemma divide_loop_terminates (x : number) (num : nat) :
  valid x = true -> strict_eq x Infinity = false ->
  exists r, divide_loop loop_bound x num = Some r /\ gt (fst r) (of_Z 1024) = false.
Proof.
  intros Hv Hinf. destruct x as [s|s| |s m e].
  - exists (S754_zero s, num). destruct s; split; reflexivity.
  - destruct s; [|discriminate]. exists (S754_infinity true, num). split; reflexivity.
  - exists (S754_nan, num). split; reflexivity.
  - destruct s.
    + exists (S754_finite true m e, num). split; reflexivity.
    + unfold valid, valid_binary in Hv.
      assert (Hfuel : e + 42 < 10 * Z.of_nat loop_bound).
      { destruct (Z_lt_le_dec e (-42)) as [Hlt|Hge]; [unfold loop_bound; lia|].
        destruct (bounded_normal _ _ Hv Hge). unfold loop_bound. lia. }
      destruct (divide_loop_finite loop_bound m e num Hv Hfuel) as [k [Hk Hstop]].
      eexists. split; [exact Hk|exact Hstop].
Qed.

(** The formatter returns a string on every double. *)
Lemma bytesToRead_total (x : number) :
  valid x = true -> exists s, bytesToRead x = Some s.
Proof.
  intros Hv. unfold bytesToRead, bytesToRead_fuel.
  destruct (isNaN x); [eauto|].
  destruct (strict_eq x Infinity) eqn:Hinf; [eauto|].
  destruct (divide_loop_terminates x 0 Hv Hinf) as [[b n] [Hr _]].
  rewrite Hr. eauto.
Qed.

(** ** The formatter on small, non-numeric and huge inputs *)

(** A double that is not above [1024] (and is not NaN) leaves the loop at
    once, whatever the fuel. *)
Lemma divide_loop_skipped (fuel : nat) (x : number) (num : nat) :
  gt x (of_Z 1024) = false -> divide_loop fuel x num = Some (x, num).
Proof.
  intros H. destruct fuel; cbn [divide_loop]; rewrite H; reflexivity.
Qed.

Lemma small_ok_all :
  forallb small_ok (map Z.of_nat (seq 0 1025)) = true.
Proof. vm_compute. reflexivity. Qed.

Lemma small_ok_range (b : Z) : 0 <= b <= 1024 -> small_ok b = true.
Proof.
  intros Hb.
  pose proof small_ok_all as Hall.
  rewrite forallb_forall in Hall. apply Hall.
  apply in_map_iff. exists (Z.to_nat b). split; [lia|].
  apply in_seq. lia.
Qed.

(** C2: for every byte count [b] with [0 <= b <= 1024] the division loop
    does not execute its body (it returns its input with unit index 0
    even without fuel) and the formatter returns the decimal digits of
    [b] followed by [".0 B"]. *)
Theorem bytesToRead_small (b : Z) :
  0 <= b <= 1024 ->
  divide_loop 0 (of_Z b) 0 = Some (of_Z b, 0%nat) /\
  bytesToRead (of_Z b) = Some (digits_of_Z b ++ ".0 B").
Proof.
  intros Hb. pose proof (small_ok_range b Hb) as Hok.
  unfold small_ok in Hok.
  repeat (apply andb_prop in Hok; destruct Hok as [Hok ?]).
  apply negb_true_iff in Hok.
  repeat match goal with H : negb _ = true |- _ => apply negb_true_iff in H end.
  match goal with H : String.eqb _ _ = true |- _ => apply String.eqb_eq in H; rename H into Hfix end.
  split.
  - apply divide_loop_skipped; assumption.
  - unfold bytesToRead, bytesToRead_fuel.
    rewrite Hok.
    match goal with H : strict_eq _ _ = false |- _ => rewrite H end.
    rewrite divide_loop_skipped by assumption.
    rewrite Hfix. reflexivity.
Qed.

Lemma bytesToRead_small_witness :
  0 <= 1000 <= 1024 /\
  divide_loop 0 (of_Z 1000) 0 = Some (of_Z 1000, 0%nat) /\
  bytesToRead (of_Z 1000) = Some "1000.0 B".
Proof.
  split; [lia|]. apply (bytesToRead_small 1000). lia.
Defined.

(** The claim C3 as it is worded fails on [-Infinity]: only [+Infinity] is
    compared with, and [toFixed] prints the negative infinity. *)
Lemma bytesToRead_neg_infinity_not_zero :
  ~ (forall x : number,
        isNaN x = true \/ x = Infinity \/ x = NegInfinity ->
        bytesToRead x = Some "0.0 B").
Proof.
  intros H. specialize (H NegInfinity (or_intror (or_intror eq_refl))).
  vm_compute in H. discriminate H.
Qed.

(** C3 (amended): the formatter maps NaN and [+Infinity] to ["0.0 B"],
    whatever the fuel; [-Infinity] passes both guards and the loop, and is
    printed as ["-Infinity B"]. *)
Theorem bytesToRead_nan_infinity :
  forall fuel : nat,
    bytesToRead_fuel fuel NaN = Some "0.0 B" /\
    bytesToRead_fuel fuel Infinity = Some "0.0 B" /\
    bytesToRead_fuel fuel NegInfinity = Some "-Infinity B".
Proof.
  intros fuel. repeat split.
  unfold bytesToRead_fuel.
  rewrite divide_loop_skipped by reflexivity. reflexivity.
Qed.

(** C4: the finite double [2^61] is above [1024^6]; the loop divides it six
    times and leaves with unit index 6, the length of [units], so that the
    lookup is out of bounds and the formatter prints [undefined]. *)
Theorem divide_loop_past_units :
  exists b : number,
    is_finite b = true /\ valid b = true /\
    gt b (of_Z (1024 ^ 6)) = true /\
    exists (bytes' : number) (num : nat),
      divide_loop loop_bound b 0 = Some (bytes', num) /\
      (List.length units <= num)%nat /\
      nth_error units num = None /\
      bytesToRead b = Some (toFixed bytes' 1 ++ " undefined").
Proof.
  exists (of_Z (2 ^ 61)). repeat split.
  exists (of_Z 2), 6%nat. repeat split.
  cbn. lia.
Qed.

(** The same happens on every double above [1024^6]: at least six
    divisions are made, and the unit lookup is out of bounds. *)
Lemma divide_loop_above_units (m : positive) (e : Z) :
  bounded prec emax m e = true ->
  gt (S754_finite false m e) (of_Z (1024 ^ 6)) = true ->
  exists (bytes' : number) (num : nat),
    divide_loop loop_bound (S754_finite false m e) 0 = Some (bytes', num) /\
    (6 <= num)%nat /\ nth_error units num = None.
Proof.
  intros Hb Hgt.
  change (of_Z (1024 ^ 6)) with (S754_finite false (2 ^ 52) 8) in Hgt.
  assert (He : 8 < e \/ (e = 8 /\ (2 ^ 52 < m)%positive)).
  { unfold gt, SFltb, SFcompare in Hgt.
    destruct (Z.compare_spec 8 e) as [Heq|Hlt|Hgt'];
      [right|left; exact Hlt|discriminate Hgt].
    split; [auto|]. rewrite Pos.compare_cont_spec in Hgt. cbn [Pos.switch_Eq] in Hgt.
    destruct (Pos.compare_spec (2 ^ 52) m); try discriminate Hgt. assumption. }
  destruct (bounded_normal m e Hb ltac:(lia)) as [Hd Hmax].
  destruct (divide_loop_finite loop_bound m e 0 Hb ltac:(unfold loop_bound; lia))
    as [k [Hk Hstop]].
  exists (S754_finite false m (e - 10 * Z.of_nat k)), (0 + k)%nat.
  split; [exact Hk|].
  assert (Hk6 : (6 <= k)%nat).
  { change (of_Z 1024) with (S754_finite false (2 ^ 52) (-42)) in Hstop.
    unfold gt, SFltb, SFcompare in Hstop.
    destruct (Z.compare_spec (-42) (e - 10 * Z.of_nat k)) as [Heq|Hlt|Hgt'].
    - destruct He as [He|[He Hm]]; [lia|].
      rewrite Pos.compare_cont_spec in Hstop. cbn [Pos.switch_Eq] in Hstop.
      destruct (Pos.compare_spec (2 ^ 52) m); try lia. discriminate Hstop.
    - discriminate Hstop.
    - lia. }
  split; [lia|]. apply nth_error_None. cbn [units List.length]. lia.
Qed.

(** ** The statistics cards when no file is counted *)

(** The claim C1 as it is worded fails: [5 / 0] is [Infinity], which is not
    NaN, so the guard of line 165 lets it through. *)
Lemma views_text_five_zero_not_guarded :
  ~ (forall st : StatsSummary,
        count st = of_Z 0 -> views_count st = of_Z 5 ->
        views_text (Some st) = Text "5 (0)").
Proof.
  intros H.
  specialize (H {| stats_size := "0.0 B"; size_num := of_Z 0; count := of_Z 0;
                   count_users := of_Z 1; views_count := of_Z 5;
                   count_by_user := []; types_count := [] |}
                eq_refl eq_refl).
  vm_compute in H. discriminate H.
Qed.

(** C1 (amended): with [stats.count = 0] and [stats.views_count = 5] the
    views card shows ["5 (Infinity)"]; the guard turns only NaN into ['0'],
    which is the case [0 / 0]: with [stats.views_count = 0] the card shows
    ["0 (0)"]. *)
Theorem views_text_zero_count (st : StatsSummary) :
  count st = of_Z 0 ->
  (views_count st = of_Z 5 -> views_text (Some st) = Text "5 (Infinity)") /\
  (views_count st = of_Z 0 -> views_text (Some st) = Text "0 (0)").
Proof.
  intros Hc. unfold views_text, views_ratio.
  split; intros Hv; rewrite Hc, Hv; vm_compute; reflexivity.
Qed.

Lemma views_text_zero_count_witness :
  views_text (Some {| stats_size := "0.0 B"; size_num := of_Z 0;
                      count := of_Z 0; count_users := of_Z 1;
                      views_count := of_Z 5;
                      count_by_user := []; types_count := [] |})
  = Text "5 (Infinity)".
Proof.
  apply (views_text_zero_count
           {| stats_size := "0.0 B"; size_num := of_Z 0;
              count := of_Z 0; count_users := of_Z 1;
              views_count := of_Z 5;
              count_by_user := []; types_count := [] |});
    reflexivity.
Defined.

(** C10: the average-size card shows what the formatter returns for
    [stats.size_num / stats.count].  With [stats.count = 0] (of either
    sign) this quotient is NaN when [size_num] is a zero, and the card
    then shows exactly ["0.0 B"] by the formatter's NaN guard; for every
    other numeric [size_num] the quotient is an infinity, shown as
    ["0.0 B"] when positive and as ["-Infinity B"] when negative. *)
Theorem average_size_zero_count (st : StatsSummary) (s : bool) :
  count st = S754_zero s ->
  average_size_text (Some st)
  = match bytesToRead (div (size_num st) (count st)) with
    | Some t => Some (Text t)
    | None => None
    end /\
  (forall s' : bool,
      size_num st = S754_zero s' ->
      div (size_num st) (count st) = NaN /\
      bytesToRead (div (size_num st) (count st)) = Some "0.0 B" /\
      average_size_text (Some st) = Some (Text "0.0 B")) /\
  (isNaN (size_num st) = false ->
   (forall s' : bool, size_num st <> S754_zero s') ->
   exists sg : bool,
     div (size_num st) (count st) = S754_infinity sg /\
     average_size_text (Some st)
     = Some (Text (if sg then "-Infinity B" else "0.0 B"))).
Proof.
  intros Hc. split; [reflexivity|].
  unfold average_size_text. rewrite Hc. split.
  - intros s' Hz. rewrite Hz. repeat split.
  - intros Hnan Hnz. destruct (size_num st) as [s'|s'| |s' m e].
    + exfalso. apply (Hnz s'). reflexivity.
    + exists (xorb s' s). split; [reflexivity|]. destruct s', s; reflexivity.
    + discriminate Hnan.
    + exists (xorb s' s). split; [reflexivity|]. destruct s', s; reflexivity.
Qed.

Lemma average_size_zero_count_witness :
  average_size_text
    (Some {| stats_size := "0.0 B"; size_num := of_Z 0; count := of_Z 0;
             count_users := of_Z 1; views_count := of_Z 0;
             count_by_user := []; types_count := [] |})
  = Some (Text "0.0 B") /\
  exists sg : bool,
    div (of_Z (-4096)) (of_Z 0) = S754_infinity sg /\
    average_size_text
      (Some {| stats_size := "-4.0 kB"; size_num := of_Z (-4096);
               count := of_Z 0; count_users := of_Z 1; views_count := of_Z 0;
               count_by_user := []; types_count := [] |})
    = Some (Text (if sg then "-Infinity B" else "0.0 B")).
Proof.
  split.
  - apply (proj1 (proj2 (average_size_zero_count
             {| stats_size := "0.0 B"; size_num := of_Z 0; count := of_Z 0;
                count_users := of_Z 1; views_count := of_Z 0;
                count_by_user := []; types_count := [] |} false eq_refl))
             false eq_refl).
  - apply (proj2 (proj2 (average_size_zero_count
             {| stats_size := "-4.0 kB"; size_num := of_Z (-4096);
                count := of_Z 0; count_users := of_Z 1; views_count := of_Z 0;
                count_by_user := []; types_count := [] |} false eq_refl))).
    + reflexivity.
    + intros s' H. discriminate H.
Defined.

(** ** Pagination *)

Lemma firstn_min_length {A : Type} (n : nat) (l : list A) :
  firstn (Nat.min n (List.length l)) l = firstn n l.
Proof.
  destruct (Nat.le_ge_cases n (List.length l)) as [H|H].
  - rewrite Nat.min_l by assumption. reflexivity.
  - rewrite Nat.min_r by assumption.
    rewrite firstn_all. symmetry. apply firstn_all2. assumption.
Qed.

Lemma slice_window {A : Type} (L : list A) (p n : nat) :
  slice L (Z.of_nat p * Z.of_nat n) (Z.of_nat p * Z.of_nat n + Z.of_nat n)
  = window L p n.
Proof.
  unfold slice, window.
  destruct (Z.ltb_spec (Z.of_nat p * Z.of_nat n) 0) as [Hneg|_]; [lia|].
  destruct (Z.ltb_spec (Z.of_nat p * Z.of_nat n + Z.of_nat n) 0) as [Hneg|_]; [lia|].
  destruct (Nat.le_gt_cases (List.length L) (p * n)) as [Hout|Hin].
  - replace (Z.to_nat (Z.min (Z.of_nat p * Z.of_nat n) (Z.of_nat (List.length L))))
      with (List.length L) by lia.
    rewrite skipn_all. rewrite (skipn_all2 L) by assumption.
    rewrite !firstn_nil. reflexivity.
  - replace (Z.to_nat (Z.min (Z.of_nat p * Z.of_nat n) (Z.of_nat (List.length L))))
      with (p * n)%nat by lia.
    rewrite <- (firstn_min_length n (skipn (p * n) L)).
    f_equal. rewrite length_skipn. lia.
Qed.

(** C5: for every file list, page index [p] and page size [n] the rows of
    the table body are the window [L[p*n : p*n+n]]: row [i] is element
    [p*n + i] of the list for [i < n]; the window is empty when [p * n] is
    at or beyond the end.  The computation is a total function: it cannot
    throw. *)
Theorem visible_rows_window (s : State) (p n : nat) :
  page s = Z.of_nat p -> rowsPerPage s = Z.of_nat n ->
  visible_rows s = window (images s) p n /\
  (forall i : nat,
      nth_error (visible_rows s) i
      = if (i <? n)%nat then nth_error (images s) (p * n + i) else None) /\
  ((List.length (images s) <= p * n)%nat -> visible_rows s = []).
Proof.
  intros Hp Hn. unfold visible_rows. rewrite Hp, Hn, slice_window.
  split; [reflexivity|]. unfold window. split.
  - intros i. destruct (Nat.ltb_spec i n) as [Hlt|Hge].
    + rewrite nth_error_firstn. 
      destruct (Nat.ltb_spec i n); [|lia].
      apply nth_error_skipn.
    + apply nth_error_None. rewrite length_firstn. lia.
  - intros Hout. rewrite skipn_all2 by assumption. apply firstn_nil.
Qed.

Lemma visible_rows_window_witness :
  visible_rows {| images := sample_files 23; recent := []; page := 2;
                  stats := None; rowsPerPage := 10 |}
  = window (sample_files 23) 2 10.
Proof.
  apply (proj1 (visible_rows_window
                  {| images := sample_files 23; recent := []; page := 2;
                     stats := None; rowsPerPage := 10 |}
                  2 10 eq_refl eq_refl)).
Defined.

(** The scenario of the specification: 23 files and 10 rows per page give
    files 0 to 9 on page 0 and the three files 20 to 22 on page 2. *)
Example visible_rows_23 :
  map id (visible_rows {| images := sample_files 23; recent := []; page := 0;
                          stats := None; rowsPerPage := 10 |})
  = [0; 1; 2; 3; 4; 5; 6; 7; 8; 9] /\
  map id (visible_rows {| images := sample_files 23; recent := []; page := 2;
                          stats := None; rowsPerPage := 10 |})
  = [20; 21; 22] /\
  visible_rows {| images := sample_files 23; recent := []; page := 3;
                  stats := None; rowsPerPage := 10 |}
  = [].
Proof. repeat split. Qed.

(** ** The page-size handler *)

(** C6: for every new page size [v] the handler sets [rowsPerPage] to [v]
    and [page] to 0, in this order, and leaves the file list, the recent
    list and the statistics as they were; it issues no request. *)
Theorem handleChangeRowsPerPage_effect (env : environment) (s : State) (v : Z) :
  exec env (handleChangeRowsPerPage {| target_value := v |}) s
  = (Fulfilled,
     {| st := {| images := images s; recent := recent s; page := 0;
                 stats := stats s; rowsPerPage := v |};
        log := [Updated (SetRowsPerPage v); Updated (SetPage 0)] |}).
Proof. reflexivity. Qed.

(** ** The refresh *)

(** The refresh from any world, by the answers of the environment. *)
Lemma updateImages_run (env : environment) (w : world) :
  run env updateImages w =
  match env _ (log w) UserFiles with
  | None => (Thrown, {| st := st w;
                        log := log w ++ [Requested files_req; Rejected files_req] |})
  | Some imgs =>
    let h1 := (log w ++ [Requested files_req; Resolved files_req])%list in
    match env _ h1 UserRecent with
    | None => (Thrown, {| st := st w;
                          log := h1 ++ [Requested recent_req; Rejected recent_req] |})
    | Some rec =>
      let h2 := (h1 ++ [Requested recent_req; Resolved recent_req])%list in
      match env _ h2 GlobalStats with
      | None => (Thrown, {| st := st w;
                            log := h2 ++ [Requested stats_req; Rejected stats_req] |})
      | Some stts =>
        (Fulfilled,
         {| st := {| images := imgs; recent := rec; page := page (st w);
                     stats := Some stts; rowsPerPage := rowsPerPage (st w) |};
            log := h2 ++ [Requested stats_req; Resolved stats_req;
                          Updated (SetImages imgs); Updated (SetStats stts);
                          Updated (SetRecent rec)] |})
      end
    end
  end.
Proof.
  unfold updateImages, files_req, recent_req, stats_req.
  cbn [run]. unfold record. cbn [st log]. cbn zeta.
  rewrite <- !app_assoc. cbn [app].
  destruct (env _ (log w) UserFiles) as [imgs|]; [|reflexivity].
  destruct (env _ _ UserRecent) as [rec|]; [|reflexivity].
  destruct (env _ _ GlobalStats) as [stts|]; [|reflexivity].
  cbn [apply_update images recent page stats rowsPerPage].
  rewrite <- !app_assoc. reflexivity.
Qed.

(** C8: when the three requests are answered, the refresh issues them one
    after the other (files, recent media with the media filter, global
    statistics), each answer being received before the next request is
    issued, and only then replaces the three slots, in the order files,
    statistics, recent. *)
Theorem updateImages_sequence (env : environment) (s : State)
        (imgs rec : list FileRecord) (stts : StatsSummary) :
  env _ [] UserFiles = Some imgs ->
  env _ [Requested files_req; Resolved files_req] UserRecent = Some rec ->
  env _ [Requested files_req; Resolved files_req;
         Requested recent_req; Resolved recent_req] GlobalStats = Some stts ->
  exec env updateImages s
  = (Fulfilled,
     {| st := {| images := imgs; recent := rec; page := page s;
                 stats := Some stts; rowsPerPage := rowsPerPage s |};
        log := [Requested {| path := "/api/user/files"; meth := GET; body_id := None |};
                Resolved files_req;
                Requested {| path := "/api/user/recent?filter=media"; meth := GET;
                             body_id := None |};
                Resolved recent_req;
                Requested {| path := "/api/stats"; meth := GET; body_id := None |};
                Resolved stats_req;
                Updated (SetImages imgs); Updated (SetStats stts);
                Updated (SetRecent rec)] |}).
Proof.
  intros H1 H2 H3. unfold exec. rewrite updateImages_run.
  cbn [log st app]. rewrite H1. cbn zeta. cbn [app]. rewrite H2, H3.
  reflexivity.
Qed.

Lemma updateImages_sequence_witness :
  exec (constant_env (Some (sample_files 23)) (Some (sample_files 4))
                     (Some sample_stats) None)
       updateImages initial_state
  = (Fulfilled,
     {| st := {| images := sample_files 23; recent := sample_files 4; page := 0;
                 stats := Some sample_stats; rowsPerPage := 10 |};
        log := [Requested files_req; Resolved files_req;
                Requested recent_req; Resolved recent_req;
                Requested stats_req; Resolved stats_req;
                Updated (SetImages (sample_files 23)); Updated (SetStats sample_stats);
                Updated (SetRecent (sample_files 4))] |}).
Proof.
  apply (updateImages_sequence
           (constant_env (Some (sample_files 23)) (Some (sample_files 4))
                         (Some sample_stats) None)
           initial_state (sample_files 23) (sample_files 4) sample_stats);
    reflexivity.
Defined.

(** C9: the refresh is all or nothing: if one of its requests is rejected,
    the refresh throws, no setter is called, and the whole state (files,
    statistics and recent included) is what it was. *)
Theorem updateImages_all_or_nothing (env : environment) (s : State) :
  (exists r : request, In (Rejected r) (log (snd (exec env updateImages s)))) ->
  fst (exec env updateImages s) = Thrown /\
  st (snd (exec env updateImages s)) = s /\
  forall u : update, ~ In (Updated u) (log (snd (exec env updateImages s))).
Proof.
  unfold exec. rewrite updateImages_run. cbn [log st app]. cbn zeta.
  destruct (env _ [] UserFiles) as [imgs|].
  2: { intros _. repeat split. intros u [H|[H|[]]]; discriminate H. }
  cbn [app].
  destruct (env _ _ UserRecent) as [rec|].
  2: { intros _. repeat split. intros u H. cbn in H.
       repeat (destruct H as [H|H]; [discriminate H|]). exact H. }
  destruct (env _ _ GlobalStats) as [stts|].
  2: { intros _. repeat split. intros u H. cbn in H.
       repeat (destruct H as [H|H]; [discriminate H|]). exact H. }
  intros [r H]. exfalso. cbn in H.
  repeat (destruct H as [H|H]; [discriminate H|]). exact H.
Qed.

Lemma updateImages_all_or_nothing_witness :
  st (snd (exec (constant_env (Some (sample_files 23)) None (Some sample_stats) None)
                updateImages initial_state))
  = initial_state.
Proof.
  apply (updateImages_all_or_nothing
           (constant_env (Some (sample_files 23)) None (Some sample_stats) None)
           initial_state).
  exists recent_req. cbn. auto.
Defined.

(** ** The delete action *)

(** The refresh, wherever it starts, first issues the request of the file
    list. *)
Lemma updateImages_invoked (env : environment) (w : world) :
  refresh_invoked (log (snd (run env updateImages w))).
Proof.
  unfold refresh_invoked. rewrite updateImages_run.
  destruct (env _ (log w) UserFiles) as [imgs|]; cbn zeta.
  2: { cbn [snd log]. apply in_or_app. right. left. reflexivity. }
  destruct (env _ _ UserRecent) as [rec|].
  2: { cbn [snd log]. rewrite <- app_assoc. apply in_or_app. right. left. reflexivity. }
  destruct (env _ _ GlobalStats) as [stts|];
    cbn [snd log]; rewrite <- !app_assoc; apply in_or_app; right; left; reflexivity.
Qed.

(** C7: the delete action first issues a DELETE request on
    [/api/user/files] whose body carries the identifier of the record.  The
    refresh is invoked if and only if that request is answered and
    [res.error] is falsy (absent or the empty string); it then runs from
    the state and history the answer left.  When [res.error] is truthy
    nothing else happens: no other request is issued and the state is
    unchanged. *)
Theorem handleDelete_refresh (env : environment) (s : State) (image : FileRecord) :
  (exists tl : list event,
      log (snd (exec env (handleDelete image) s))
      = Requested (delete_req image) :: tl) /\
  (refresh_invoked (log (snd (exec env (handleDelete image) s))) <->
   exists res : DeleteResponse,
     env _ [] (DeleteFile (id image)) = Some res /\
     to_boolean (error res) = false) /\
  (forall res : DeleteResponse,
      env _ [] (DeleteFile (id image)) = Some res ->
      to_boolean (error res) = false ->
      exec env (handleDelete image) s
      = (Fulfilled,
         snd (run env updateImages
                  {| st := s;
                     log := [Requested (delete_req image);
                             Resolved (delete_req image)] |}))) /\
  (forall res : DeleteResponse,
      env _ [] (DeleteFile (id image)) = Some res ->
      to_boolean (error res) = true ->
      exec env (handleDelete image) s
      = (Fulfilled,
         {| st := s;
            log := [Requested (delete_req image); Resolved (delete_req image)] |})).
Proof.
  unfold exec, handleDelete. cbn [run]. unfold record. cbn [st log app wire].
  fold (delete_req image).
  destruct (env _ [] (DeleteFile (id image))) as [res|].
  - destruct (to_boolean (error res)) eqn:Herr; cbn [negb run].
    + repeat split.
      * eexists. reflexivity.
      * intros H. unfold refresh_invoked in H. cbn in H.
        destruct H as [H|[H|[]]]; discriminate H.
      * intros [res' [Hres Hno]]. injection Hres as <-. congruence.
      * intros res' Hres Hno. injection Hres as <-. congruence.
    + repeat split.
      * rewrite updateImages_run. cbn [log st].
        destruct (env _ _ UserFiles); cbn zeta; [|eexists; reflexivity].
        destruct (env _ _ UserRecent); [|eexists; reflexivity].
        destruct (env _ _ GlobalStats); eexists; reflexivity.
      * intros _. exists res. auto.
      * intros _. apply updateImages_invoked.
      * intros res' Hres Hyes. injection Hres as <-. congruence.
  - repeat split.
    + eexists. reflexivity.
    + intros H. unfold refresh_invoked in H. cbn in H.
      destruct H as [H|[H|[]]]; discriminate H.
    + intros [res [Hres _]]. discriminate Hres.
    + intros res Hres. discriminate Hres.
    + intros res Hres. discriminate Hres.
Qed.

Lemma handleDelete_refresh_witness :
  exec (constant_env (Some (sample_files 22)) (Some (sample_files 4))
                     (Some sample_stats) (Some {| error := Some "not found" |}))
       (handleDelete (sample_file 3))
       {| images := sample_files 23; recent := sample_files 4; page := 2;
          stats := Some sample_stats; rowsPerPage := 10 |}
  = (Fulfilled,
     {| st := {| images := sample_files 23; recent := sample_files 4; page := 2;
                 stats := Some sample_stats; rowsPerPage := 10 |};
        log := [Requested (delete_req (sample_file 3));
                Resolved (delete_req (sample_file 3))] |}).
Proof.
  apply (proj2 (proj2 (proj2
           (handleDelete_refresh
              (constant_env (Some (sample_files 22)) (Some (sample_files 4))
                            (Some sample_stats)
                            (Some {| error := Some "not found" |}))
              {| images := sample_files 23; recent := sample_files 4; page := 2;
                 stats := Some sample_stats; rowsPerPage := 10 |}
              (sample_file 3))))
           {| error := Some "not found" |});
    reflexivity.
Defined.

(** * Further properties *)

(** ** The formatter: which unit, which value *)

(** [x > y] between positive doubles, by exponent and significand. *)
Lemma gt_finite (m m' : positive) (e e' : Z) :
  gt (S754_finite false m e) (S754_finite false m' e') = true <->
  e' < e \/ (e' = e /\ (m' < m)%positive).
Proof.
  unfold gt, SFltb, SFcompare.
  destruct (Z.compare_spec e' e) as [Heq|Hlt|Hgt].
  - rewrite Pos.compare_cont_spec. cbn [Pos.switch_Eq].
    destruct (Pos.compare_spec m' m) as [Hc|Hc|Hc]; split; intros H;
      try discriminate H; try reflexivity; try lia.
  - split; [intros _; lia|reflexivity].
  - split; [discriminate|lia].
Qed.

Lemma of_Z_pow1024 (k : nat) :
  (k <= 6)%nat ->
  of_Z (1024 ^ Z.of_nat k) = S754_finite false (2 ^ 52) (10 * Z.of_nat k - 52).
Proof.
  intros Hk.
  do 7 (destruct k as [|k]; [reflexivity|]). lia.
Qed.

(** The loop on a positive double: [k] divisions, each of them on a value
    above [1024], the last value not above [1024]. *)
Lemma divide_loop_steps (fuel : nat) :
  forall (m : positive) (e : Z) (num : nat),
    bounded prec emax m e = true ->
    e + 42 < 10 * Z.of_nat fuel ->
    exists k : nat,
      divide_loop fuel (S754_finite false m e) num
      = Some (S754_finite false m (e - 10 * Z.of_nat k), (num + k)%nat) /\
      gt (S754_finite false m (e - 10 * Z.of_nat k)) (of_Z 1024) = false /\
      (forall j : nat, (j < k)%nat ->
         gt (S754_finite false m (e - 10 * Z.of_nat j)) (of_Z 1024) = true) /\
      (k = 0%nat \/ -42 <= e - 10 * (Z.of_nat k - 1)).
Proof.
  induction fuel as [|fuel IH]; intros m e num Hb Hfuel.
  - exists 0%nat. cbn [divide_loop].
    destruct (gt (S754_finite false m e) (of_Z 1024)) eqn:Hgt.
    + apply gt_1024_exponent in Hgt. lia.
    + rewrite Z.mul_0_r, Z.sub_0_r, Nat.add_0_r. rewrite Hgt.
      repeat split; auto. intros j Hj. lia.
  - cbn [divide_loop].
    destruct (gt (S754_finite false m e) (of_Z 1024)) eqn:Hgt.
    + pose proof (gt_1024_exponent _ _ Hgt) as He.
      destruct (bounded_normal _ _ Hb He) as [Hd Hmax].
      rewrite div_1024_exact by (auto; lia).
      destruct (IH m (e - 10) (S num)) as [k [Hk [Hstop [Hmin Hlow]]]].
      * apply bounded_shift; auto; lia.
      * lia.
      * exists (S k). rewrite Hk.
        replace (e - 10 - 10 * Z.of_nat k) with (e - 10 * Z.of_nat (S k)) in * by lia.
        replace (S num + k)%nat with (num + S k)%nat by lia.
        repeat split; auto.
        -- intros j Hj. destruct j as [|j].
           ++ rewrite Z.mul_0_r, Z.sub_0_r. exact Hgt.
           ++ replace (e - 10 * Z.of_nat (S j)) with (e - 10 - 10 * Z.of_nat j) by lia.
              apply Hmin. lia.
        -- right. destruct Hlow as [->|Hlow]; lia.
    + exists 0%nat.
      rewrite Z.mul_0_r, Z.sub_0_r, Nat.add_0_r. rewrite Hgt.
      repeat split; auto. intros j Hj. lia.
Qed.

Lemma bounded_fuel (m : positive) (e : Z) :
  bounded prec emax m e = true -> e + 42 < 10 * Z.of_nat loop_bound.
Proof.
  intros Hb.
  destruct (Z_lt_le_dec e (-42)) as [Hlt|Hge]; [unfold loop_bound; lia|].
  destruct (bounded_normal _ _ Hb Hge). unfold loop_bound. lia.
Qed.

Lemma pow2_plus (a b : Z) : (pow2 (a + b) == pow2 a * pow2 b)%Q.
Proof. unfold pow2. apply Qpower_plus. discriminate. Qed.

(** X1: on every positive double the formatter divides [k] times, where
    [k] is the least number of divisions that brings the value to [1024]
    or below; no division rounds: the value it prints with one decimal is
    exactly the input over [1024^k]. *)
Theorem bytesToRead_scaling_exact (m : positive) (e : Z) :
  bounded prec emax m e = true ->
  exists k : nat,
    bytesToRead (S754_finite false m e)
    = Some (toFixed (S754_finite false m (e - 10 * Z.of_nat k)) 1 ++ " " ++
            show_lookup (nth_error units k)) /\
    (value_Q m (e - 10 * Z.of_nat k) * pow2 (10 * Z.of_nat k) == value_Q m e)%Q /\
    gt (S754_finite false m (e - 10 * Z.of_nat k)) (of_Z 1024) = false /\
    (forall j : nat, (j < k)%nat ->
       gt (S754_finite false m (e - 10 * Z.of_nat j)) (of_Z 1024) = true).
Proof.
  intros Hb.
  destruct (divide_loop_steps loop_bound m e 0 Hb (bounded_fuel m e Hb))
    as [k [Hk [Hstop [Hmin _]]]].
  exists k. repeat split; auto.
  - unfold bytesToRead, bytesToRead_fuel. cbn [isNaN strict_eq].
    change (SFeqb (S754_finite false m e) Infinity) with false. cbv iota.
    fold loop_bound. rewrite Hk. reflexivity.
  - unfold value_Q. rewrite <- Qmult_assoc, <- pow2_plus.
    replace (e - 10 * Z.of_nat k + 10 * Z.of_nat k) with e by lia. reflexivity.
Qed.

Lemma bytesToRead_scaling_exact_witness :
  exists k : nat,
    bytesToRead (of_Z 1536)
    = Some (toFixed (S754_finite false (3 * 2 ^ 51) (-42 - 10 * Z.of_nat k)) 1
            ++ " " ++ show_lookup (nth_error units k)).
Proof.
  destruct (bytesToRead_scaling_exact (3 * 2 ^ 51) (-42) eq_refl) as [k [H _]].
  exists k. exact H.
Defined.

(** X2: on a positive double the unit is one of the six of the list
    exactly when the input is not above [1024^6]; above it the lookup is
    out of bounds. *)
Theorem bytesToRead_unit_in_list (m : positive) (e : Z) :
  bounded prec emax m e = true ->
  exists (bytes' : number) (num : nat),
    divide_loop loop_bound (S754_finite false m e) 0 = Some (bytes', num) /\
    bytesToRead (S754_finite false m e)
    = Some (toFixed bytes' 1 ++ " " ++ show_lookup (nth_error units num)) /\
    ((exists u : string, nth_error units num = Some u /\ In u units) <->
     gt (S754_finite false m e) (of_Z (1024 ^ 6)) = false).
Proof.
  intros Hb.
  destruct (divide_loop_steps loop_bound m e 0 Hb (bounded_fuel m e Hb))
    as [k [Hk [Hstop [Hmin Hlow]]]].
  exists (S754_finite false m (e - 10 * Z.of_nat k)), k.
  split; [exact Hk|]. split.
  { unfold bytesToRead, bytesToRead_fuel. cbn [isNaN].
    change (strict_eq (S754_finite false m e) Infinity) with false. cbv iota.
    rewrite Hk. reflexivity. }
  split.
  - intros [u [Hu _]].
    destruct (gt (S754_finite false m e) (of_Z (1024 ^ 6))) eqn:Hgt; [|reflexivity].
    destruct (divide_loop_above_units m e Hb Hgt) as [b' [n' [Hn' [H6 Hnone]]]].
    rewrite Hk in Hn'. injection Hn' as _ <-. cbn [Nat.add] in Hnone. congruence.
  - intros Hle.
    assert (Hk5 : (k <= 5)%nat).
    { destruct (Nat.le_gt_cases k 5) as [|Hk6]; [assumption|exfalso].
      specialize (Hmin 5%nat Hk6).
      change (of_Z 1024) with (S754_finite false (2 ^ 52) (-42)) in Hmin.
      change (of_Z (1024 ^ 6)) with (S754_finite false (2 ^ 52) 8) in Hle.
      apply gt_finite in Hmin.
      assert (Hgt : gt (S754_finite false m e) (S754_finite false (2 ^ 52) 8) = true).
      { apply gt_finite. change (Z.of_nat 5) with 5 in Hmin. lia. }
      congruence. }
    destruct (nth_error units k) as [u|] eqn:Hu.
    + exists u. split; [reflexivity|]. eapply nth_error_In. exact Hu.
    + apply nth_error_None in Hu. cbn [units List.length] in Hu. lia.
Qed.

Lemma bytesToRead_unit_in_list_witness :
  exists (bytes' : number) (num : nat),
    divide_loop loop_bound (of_Z (2 ^ 60)) 0 = Some (bytes', num) /\
    bytesToRead (of_Z (2 ^ 60))
    = Some (toFixed bytes' 1 ++ " " ++ show_lookup (nth_error units num)) /\
    ((exists u : string, nth_error units num = Some u /\ In u units) <->
     gt (of_Z (2 ^ 60)) (of_Z (1024 ^ 6)) = false).
Proof.
  exact (bytesToRead_unit_in_list (2 ^ 52) 8 eq_refl).
Defined.

(** X3: an input that is not NaN and not above [1024] (every negative
    number, both zeros, [-Infinity], every fraction up to [1024]) is not
    divided: it is printed with one decimal and the unit [B]. *)
Theorem bytesToRead_not_above_1024 (x : number) :
  isNaN x = false -> gt x (of_Z 1024) = false ->
  bytesToRead x = Some (toFixed x 1 ++ " B").
Proof.
  intros Hnan Hgt. unfold bytesToRead, bytesToRead_fuel. rewrite Hnan.
  assert (Hinf : strict_eq x Infinity = false).
  { destruct x as [s|[|]| |s m e]; try reflexivity; discriminate. }
  rewrite Hinf, divide_loop_skipped by assumption. reflexivity.
Qed.

Lemma bytesToRead_not_above_1024_witness :
  bytesToRead (of_Z (-5000)) = Some "-5000.0 B".
Proof.
  apply (bytesToRead_not_above_1024 (of_Z (-5000))); reflexivity.
Defined.

(** Every negative double, however large, is not above [1024]. *)
Lemma negative_not_above (m : positive) (e : Z) :
  gt (S754_finite true m e) (of_Z 1024) = false.
Proof. reflexivity. Qed.

(** X4: a positive double above [1024^k] and not above [1024^(k+1)], for
    [k] from 1 to 5, is printed as the input over [1024^k] (same
    significand, exponent lowered by [10 k]) with the unit of index [k]:
    kB, MB, GB, TB, PB. *)
Theorem bytesToRead_unit_thresholds (m : positive) (e : Z) (k : nat) :
  bounded prec emax m e = true ->
  (1 <= k <= 5)%nat ->
  gt (S754_finite false m e) (of_Z (1024 ^ Z.of_nat k)) = true ->
  gt (S754_finite false m e) (of_Z (1024 ^ Z.of_nat (S k))) = false ->
  bytesToRead (S754_finite false m e)
  = Some (toFixed (S754_finite false m (e - 10 * Z.of_nat k)) 1 ++ " " ++
          nth k units "").
Proof.
  intros Hb Hk Hlo Hhi.
  rewrite of_Z_pow1024 in Hlo by lia. rewrite of_Z_pow1024 in Hhi by lia.
  apply gt_finite in Hlo.
  assert (Hhi' : ~ (10 * Z.of_nat (S k) - 52 < e \/
                    (10 * Z.of_nat (S k) - 52 = e /\ (2 ^ 52 < m)%positive))).
  { intros H. apply gt_finite in H. congruence. }
  destruct (divide_loop_steps loop_bound m e 0 Hb (bounded_fuel m e Hb))
    as [k' [Hk' [Hstop [Hmin _]]]].
  assert (Heq : k' = k).
  { change (of_Z 1024) with (S754_finite false (2 ^ 52) (-42)) in Hstop, Hmin.
    assert (Hstop' : ~ (-42 < e - 10 * Z.of_nat k' \/
                        (-42 = e - 10 * Z.of_nat k' /\ (2 ^ 52 < m)%positive))).
    { intros H. apply gt_finite in H. congruence. }
    destruct (Nat.lt_trichotomy k' k) as [Hlt|[Heq|Hgt]]; [exfalso|assumption|exfalso].
    - lia.
    - specialize (Hmin k Hgt). apply gt_finite in Hmin. lia. }
  subst k'.
  unfold bytesToRead, bytesToRead_fuel. cbn [isNaN].
  change (strict_eq (S754_finite false m e) Infinity) with false. cbv iota.
  rewrite Hk'. cbn [Nat.add]. do 2 f_equal. f_equal.
  destruct Hk as [Hk1 Hk5].
  do 6 (destruct k as [|k]; [try lia; reflexivity|]). lia.
Qed.

Lemma bytesToRead_unit_thresholds_witness :
  bytesToRead (of_Z 1536) = Some "1.5 kB".
Proof.
  apply (bytesToRead_unit_thresholds (3 * 2 ^ 51) (-42) 1 eq_refl);
    [lia|reflexivity|reflexivity].
Defined.

(** ** The statistics cards never print NaN *)

Lemma digits_of_Z_head (z : Z) :
  exists (c : ascii) (r : string),
    digits_of_Z z = String c r /\ c <> "N"%char.
Proof.
  unfold digits_of_Z, NilZero.string_of_uint.
  destruct (N.to_uint (Z.to_N z)); cbn [NilEmpty.string_of_uint];
    eexists; eexists; (split; [reflexivity|discriminate]).
Qed.

Lemma to_string_pos_head (m : positive) (e : Z) :
  exists (c : ascii) (r : string),
    to_string_pos m e = String c r /\ c <> "N"%char.
Proof.
  unfold to_string_pos. destruct (shortest m e) as [[k s] n].
  destruct (digits_of_Z_head s) as [c [r [Hds Hc]]]. rewrite Hds.
  destruct (andb (-5 <=? n) (n <=? 21)).
  - destruct (k <=? n).
    + exists c. eexists. split; [reflexivity|assumption].
    + destruct (Z.ltb_spec 0 n) as [Hn|Hn].
      * destruct (Z.to_nat n) as [|n'] eqn:Hn'; [lia|].
        exists c. eexists. split; [reflexivity|assumption].
      * eexists. eexists. split; [reflexivity|discriminate].
  - destruct (k =? 1).
    + exists c. eexists. split; [reflexivity|assumption].
    + exists c. eexists. split; [reflexivity|assumption].
Qed.

(** X5: the guard of the views card is complete: whatever the numbers of
    the statistics are, the ratio between the parentheses is never printed
    as ["NaN"]; it is ["0"] whenever the quotient is NaN. *)
Theorem views_ratio_never_NaN (st : StatsSummary) :
  views_ratio st <> "NaN" /\
  (isNaN (div (views_count st) (count st)) = true -> views_ratio st = "0").
Proof.
  unfold views_ratio. split.
  - destruct (div (views_count st) (count st)) as [s|[|]| |[|] m e];
      cbn [isNaN to_string]; try discriminate.
    destruct (to_string_pos_head m e) as [c [r [H Hc]]]. rewrite H.
    intros Heq. injection Heq as Heq _. contradiction.
  - intros H. rewrite H. reflexivity.
Qed.

(** X6: with [stats.count = 0] and a positive total size the quotient is
    [+Infinity], which the formatter turns into ["0.0 B"]; with the zero
    [-0] as count it is [-Infinity], and the card shows ["-Infinity B"]. *)
Theorem average_size_infinite (st : StatsSummary) (m : positive) (e : Z) :
  size_num st = S754_finite false m e ->
  (count st = S754_zero false ->
   average_size_text (Some st) = Some (Text "0.0 B")) /\
  (count st = S754_zero true ->
   average_size_text (Some st) = Some (Text "-Infinity B")).
Proof.
  intros Hs. unfold average_size_text.
  split; intros Hc; rewrite Hs, Hc; reflexivity.
Qed.

Lemma average_size_infinite_witness :
  average_size_text
    (Some {| stats_size := "4.0 kB"; size_num := of_Z 4096; count := of_Z 0;
             count_users := of_Z 1; views_count := of_Z 0;
             count_by_user := []; types_count := [] |})
  = Some (Text "0.0 B").
Proof.
  apply (proj1 (average_size_infinite
                  {| stats_size := "4.0 kB"; size_num := of_Z 4096; count := of_Z 0;
                     count_users := of_Z 1; views_count := of_Z 0;
                     count_by_user := []; types_count := [] |}
                  (2 ^ 52) (-40) eq_refl)).
  reflexivity.
Defined.

(** ** Pagination: the pages together, and the handlers with the table *)

Lemma firstn_plus {A : Type} (a b : nat) (l : list A) :
  firstn (a + b) l = (firstn a l ++ firstn b (skipn a l))%list.
Proof.
  revert l. induction a as [|a IH]; intros l; [reflexivity|].
  destruct l as [|x l]; cbn [Nat.add firstn skipn app].
  - rewrite firstn_nil. reflexivity.
  - rewrite IH. reflexivity.
Qed.

Lemma concat_windows {A : Type} (L : list A) (n c : nat) :
  List.concat (map (fun p => window L p n) (seq 0 c)) = firstn (c * n) L.
Proof.
  induction c as [|c IH]; [reflexivity|].
  rewrite seq_S, map_app, concat_app, IH. cbn [map List.concat Nat.add].
  rewrite app_nil_r. unfold window.
  replace (S c * n)%nat with (c * n + n)%nat by lia.
  symmetry. apply firstn_plus.
Qed.

Lemma page_count_covers (len n : nat) :
  (0 < n)%nat -> (len <= page_count len n * n)%nat.
Proof.
  intros Hn. unfold page_count.
  pose proof (Nat.div_mod_eq (len + n - 1) n) as Hdm.
  pose proof (Nat.mod_upper_bound (len + n - 1) n ltac:(lia)) as Hlt.
  rewrite (Nat.mul_comm _ n). lia.
Qed.

Lemma visible_rows_at_page (s : State) (p n : nat) :
  rowsPerPage s = Z.of_nat n ->
  visible_rows (at_page s (Z.of_nat p)) = window (images s) p n.
Proof.
  intros Hn. unfold visible_rows, at_page.
  cbn [apply_update images page rowsPerPage]. rewrite Hn. apply slice_window.
Qed.

(** X7: with a positive page size the pages partition the file list: the
    rows of pages [0] to [page_count - 1], one after the other, are the
    whole list, each file once and in order; every later page is empty. *)
Theorem pages_partition (s : State) (n : nat) :
  rowsPerPage s = Z.of_nat n -> (0 < n)%nat ->
  List.concat (map (fun p => visible_rows (at_page s (Z.of_nat p)))
              (seq 0 (page_count (List.length (images s)) n)))
  = images s /\
  forall p : nat,
    (page_count (List.length (images s)) n <= p)%nat ->
    visible_rows (at_page s (Z.of_nat p)) = [].
Proof.
  intros Hn Hpos. split.
  - rewrite (map_ext _ (fun p => window (images s) p n))
      by (intros p; apply visible_rows_at_page; assumption).
    rewrite concat_windows. apply firstn_all2.
    apply page_count_covers. assumption.
  - intros p Hp. rewrite (visible_rows_at_page s p n Hn). unfold window.
    rewrite skipn_all2; [apply firstn_nil|].
    pose proof (page_count_covers (List.length (images s)) n Hpos). nia.
Qed.

Lemma pages_partition_witness :
  List.concat (map (fun p => visible_rows
                          (at_page {| images := sample_files 23; recent := [];
                                      page := 0; stats := None; rowsPerPage := 10 |}
                                   (Z.of_nat p)))
              (seq 0 3))
  = sample_files 23.
Proof.
  apply (proj1 (pages_partition
                  {| images := sample_files 23; recent := []; page := 0;
                     stats := None; rowsPerPage := 10 |} 10 eq_refl ltac:(lia))).
Defined.

(** X8: page [p] shows [min n (len - p * n)] rows (none when [p * n] is
    past the end): full pages of [n] rows, then the remainder. *)
Theorem visible_rows_length (s : State) (p n : nat) :
  page s = Z.of_nat p -> rowsPerPage s = Z.of_nat n ->
  List.length (visible_rows s)
  = Nat.min n (List.length (images s) - p * n).
Proof.
  intros Hp Hn. unfold visible_rows. rewrite Hp, Hn, slice_window.
  unfold window. rewrite length_firstn, length_skipn. reflexivity.
Qed.

Lemma visible_rows_length_witness :
  List.length (visible_rows {| images := sample_files 23; recent := [];
                               page := 2; stats := None; rowsPerPage := 10 |})
  = 3%nat.
Proof.
  apply (visible_rows_length
           {| images := sample_files 23; recent := []; page := 2;
              stats := None; rowsPerPage := 10 |} 2 10 eq_refl eq_refl).
Defined.

(** X9: after the page-size handler has run with the size [v], the table
    shows the first [v] files of the list (all of them when there are
    fewer), whatever page was shown before. *)
Theorem change_rows_per_page_shows_first (env : environment) (s : State) (v : nat) :
  visible_rows
    (st (snd (exec env (handleChangeRowsPerPage {| target_value := Z.of_nat v |}) s)))
  = firstn v (images s).
Proof.
  cbn [exec run handleChangeRowsPerPage target_value st snd apply_update
       images page rowsPerPage recent stats].
  unfold visible_rows. cbn [images page rowsPerPage].
  change 0 with (Z.of_nat 0) at 1 2.
  rewrite slice_window. reflexivity.
Qed.

(** X10: the page handler sets the page to whatever index it is given,
    without comparing it with the length of the list, and touches nothing
    else; the table then shows the window of that index, which is empty
    for an index past the last page. *)
Theorem handleChangePage_effect (env : environment) (s : State) (p n : nat) :
  rowsPerPage s = Z.of_nat n ->
  exec env (handleChangePage (Z.of_nat p)) s
  = (Fulfilled, {| st := at_page s (Z.of_nat p);
                   log := [Updated (SetPage (Z.of_nat p))] |}) /\
  visible_rows (at_page s (Z.of_nat p)) = window (images s) p n /\
  ((List.length (images s) <= p * n)%nat ->
   visible_rows (at_page s (Z.of_nat p)) = []).
Proof.
  intros Hn. split; [reflexivity|].
  rewrite (visible_rows_at_page s p n Hn). split; [reflexivity|].
  intros Hout. unfold window. rewrite skipn_all2 by assumption. apply firstn_nil.
Qed.

Lemma handleChangePage_effect_witness :
  visible_rows (at_page {| images := sample_files 23; recent := []; page := 0;
                           stats := None; rowsPerPage := 10 |} (Z.of_nat 7))
  = [].
Proof.
  apply (proj2 (proj2 (handleChangePage_effect
           (constant_env None None None None)
           {| images := sample_files 23; recent := []; page := 0;
              stats := None; rowsPerPage := 10 |} 7 10 eq_refl))).
  cbn. lia.
Defined.

(** ** The handlers against every environment *)

(** X11: the Delete button of row [i] of the table deletes the file at
    position [page * rowsPerPage + i] of the list: its handler first
    issues the DELETE request with that file's identifier; past the last
    row there is no button. *)
Theorem click_delete_targets_row (env : environment) (s : State) (p n i : nat) :
  page s = Z.of_nat p -> rowsPerPage s = Z.of_nat n ->
  (forall row : FileRecord,
      (i < n)%nat -> nth_error (images s) (p * n + i) = Some row ->
      click_delete s i = Some (handleDelete row) /\
      exists tl : list event,
        log (snd (exec env (handleDelete row) s))
        = Requested {| path := "/api/user/files"; meth := DELETE;
                       body_id := Some (id row) |} :: tl) /\
  ((n <= i)%nat \/ (List.length (images s) <= p * n + i)%nat ->
   click_delete s i = None).
Proof.
  intros Hp Hn. unfold click_delete, visible_rows.
  rewrite Hp, Hn, slice_window. unfold window. split.
  - intros row Hi Hrow. rewrite nth_error_firstn.
    destruct (Nat.ltb_spec i n); [|lia].
    rewrite nth_error_skipn, Hrow. split; [reflexivity|].
    unfold exec, handleDelete. cbn [run]. unfold record. cbn [st log app wire].
    destruct (env _ [] (DeleteFile (id row))) as [res|]; [|eexists; reflexivity].
    destruct (negb (to_boolean (error res))); cbn [run]; [|eexists; reflexivity].
    rewrite updateImages_run. cbn [log st].
    destruct (env _ _ UserFiles); cbn zeta; [|eexists; reflexivity].
    destruct (env _ _ UserRecent); [|eexists; reflexivity].
    destruct (env _ _ GlobalStats); eexists; reflexivity.
  - intros Hout.
    replace (nth_error (firstn n (skipn (p * n) (images s))) i) with (@None FileRecord);
      [reflexivity|].
    symmetry. apply nth_error_None. rewrite length_firstn, length_skipn. lia.
Qed.

Lemma click_delete_targets_row_witness :
  click_delete {| images := sample_files 23; recent := []; page := 2;
                  stats := None; rowsPerPage := 10 |} 1
  = Some (handleDelete (sample_file 21)).
Proof.
  apply (proj1 (click_delete_targets_row
                  (constant_env None None None None)
                  {| images := sample_files 23; recent := []; page := 2;
                     stats := None; rowsPerPage := 10 |} 2 10 1 eq_refl eq_refl)
               (sample_file 21)).
  - lia.
  - reflexivity.
Defined.

(** X12: whatever the environment answers, neither the refresh nor the
    delete action moves the pagination cursor: [page] and [rowsPerPage]
    are what they were. *)
Theorem refresh_and_delete_keep_cursor (env : environment) (w : world)
        (image : FileRecord) :
  (page (st (snd (run env updateImages w))) = page (st w) /\
   rowsPerPage (st (snd (run env updateImages w))) = rowsPerPage (st w)) /\
  (page (st (snd (run env (handleDelete image) w))) = page (st w) /\
   rowsPerPage (st (snd (run env (handleDelete image) w))) = rowsPerPage (st w)).
Proof.
  assert (Hrefresh : forall w' : world,
             page (st (snd (run env updateImages w'))) = page (st w') /\
             rowsPerPage (st (snd (run env updateImages w'))) = rowsPerPage (st w')).
  { intros w'. rewrite updateImages_run.
    destruct (env _ (log w') UserFiles); cbn zeta; [|split; reflexivity].
    destruct (env _ _ UserRecent); [|split; reflexivity].
    destruct (env _ _ GlobalStats); split; reflexivity. }
  split; [apply Hrefresh|].
  unfold handleDelete. cbn [run].
  destruct (env _ (log w) (DeleteFile (id image))) as [res|]; [|split; reflexivity].
  destruct (negb (to_boolean (error res))); cbn [run]; [|split; reflexivity].
  apply (Hrefresh (record (Resolved (wire (DeleteFile (id image))))
                          (record (Requested (wire (DeleteFile (id image)))) w))).
Qed.

(** X13: a delete action whose request is rejected throws at once: the
    trace is the request and its rejection, no refresh is started and the
    state is unchanged. *)
Theorem handleDelete_rejected (env : environment) (s : State) (image : FileRecord) :
  env _ [] (DeleteFile (id image)) = None ->
  exec env (handleDelete image) s
  = (Thrown, {| st := s;
                log := [Requested (delete_req image); Rejected (delete_req image)] |}) /\
  ~ refresh_invoked (log (snd (exec env (handleDelete image) s))).
Proof.
  intros Hrej. unfold exec, handleDelete. cbn [run log]. rewrite Hrej.
  split; [reflexivity|].
  unfold refresh_invoked. cbn. intros [H|[H|[]]]; discriminate H.
Qed.

Lemma handleDelete_rejected_witness :
  exec (constant_env None None None None) (handleDelete (sample_file 3)) initial_state
  = (Thrown, {| st := initial_state;
                log := [Requested (delete_req (sample_file 3));
                        Rejected (delete_req (sample_file 3))] |}).
Proof.
  apply (handleDelete_rejected (constant_env None None None None)
                               initial_state (sample_file 3)).
  reflexivity.
Defined.

(** X14: after a delete that is answered without error and a refresh that
    is answered, the table shows the window of the OLD page index in the
    NEW list: when the deleted file was the only row of the last page, the
    table is left empty although files remain. *)
Theorem delete_keeps_page (env : environment) (s : State) (image : FileRecord)
        (res : DeleteResponse) (imgs rec : list FileRecord) (stts : StatsSummary)
        (p n : nat) :
  page s = Z.of_nat p -> rowsPerPage s = Z.of_nat n ->
  env _ [] (DeleteFile (id image)) = Some res ->
  to_boolean (error res) = false ->
  env _ [Requested (delete_req image); Resolved (delete_req image)] UserFiles
  = Some imgs ->
  env _ [Requested (delete_req image); Resolved (delete_req image);
         Requested files_req; Resolved files_req] UserRecent = Some rec ->
  env _ [Requested (delete_req image); Resolved (delete_req image);
         Requested files_req; Resolved files_req;
         Requested recent_req; Resolved recent_req] GlobalStats = Some stts ->
  images (st (snd (exec env (handleDelete image) s))) = imgs /\
  visible_rows (st (snd (exec env (handleDelete image) s))) = window imgs p n /\
  ((List.length imgs <= p * n)%nat ->
   visible_rows (st (snd (exec env (handleDelete image) s))) = []).
Proof.
  intros Hp Hn Hdel Herr H1 H2 H3.
  unfold exec, handleDelete. cbn [run log]. rewrite Hdel, Herr. cbn [negb run].
  rewrite updateImages_run. unfold record. cbn [st log app wire].
  fold (delete_req image). rewrite H1. cbn zeta. cbn [app]. rewrite H2, H3.
  cbn [snd st images]. split; [reflexivity|].
  unfold visible_rows. cbn [images page rowsPerPage].
  rewrite Hp, Hn, slice_window. split; [reflexivity|].
  intros Hout. unfold window. rewrite skipn_all2 by assumption. apply firstn_nil.
Qed.

Lemma delete_keeps_page_witness :
  visible_rows
    (st (snd (exec (constant_env (Some (sample_files 20)) (Some (sample_files 4))
                                 (Some sample_stats) (Some {| error := None |}))
                   (handleDelete (sample_file 20))
                   {| images := sample_files 21; recent := sample_files 4; page := 2;
                      stats := Some sample_stats; rowsPerPage := 10 |})))
  = [].
Proof.
  apply (proj2 (proj2 (delete_keeps_page
           (constant_env (Some (sample_files 20)) (Some (sample_files 4))
                         (Some sample_stats) (Some {| error := None |}))
           {| images := sample_files 21; recent := sample_files 4; page := 2;
              stats := Some sample_stats; rowsPerPage := 10 |}
           (sample_file 20) {| error := None |}
           (sample_files 20) (sample_files 4) sample_stats 2 10
           eq_refl eq_refl eq_refl eq_refl eq_refl eq_refl eq_refl))).
  cbn. lia.
Defined.


(** ** First display, and what the page shows without data *)

(** X16: the effect of the first display never throws: a rejected request
    is swallowed with the dropped promise.  If one of the three requests
    is rejected the page stays as it was first rendered: the counter shows
    ['...'], the grid its four placeholders, the statistics their
    skeletons, and the three tables have no row. *)
Theorem on_mount_failure_keeps_placeholders (env : environment) :
  fst (exec env on_mount initial_state) = Fulfilled /\
  ((exists r : request,
       In (Rejected r) (log (snd (exec env on_mount initial_state)))) ->
   let s' := st (snd (exec env on_mount initial_state)) in
   images_count_text s' = "..." /\
   recent_grid s' = [SkeletonBox 1; SkeletonBox 2; SkeletonBox 3; SkeletonBox 4] /\
   size_text (stats s') = Skeleton /\
   average_size_text (stats s') = Some Skeleton /\
   count_text (stats s') = Skeleton /\
   views_text (stats s') = Skeleton /\
   users_text (stats s') = Skeleton /\
   visible_rows s' = [] /\
   body (users_table (stats s')) = [] /\
   body (types_table (stats s')) = []).
Proof.
  unfold exec, on_mount. cbn [run fst]. split; [reflexivity|].
  rewrite updateImages_run. cbn [log st app]. cbn zeta.
  destruct (env _ [] UserFiles) as [imgs|].
  2: { intros _. cbn. repeat split. }
  cbn [app]. destruct (env _ _ UserRecent) as [rec|].
  2: { intros _. cbn. repeat split. }
  destruct (env _ _ GlobalStats) as [stts|].
  2: { intros _. cbn. repeat split. }
  intros [r H]. exfalso. cbn in H.
  repeat (destruct H as [H|H]; [discriminate H|]). exact H.
Qed.

Lemma on_mount_failure_keeps_placeholders_witness :
  images_count_text
    (st (snd (exec (constant_env (Some (sample_files 23)) (Some (sample_files 4))
                                 None None)
                   on_mount initial_state)))
  = "...".
Proof.
  apply (proj2 (on_mount_failure_keeps_placeholders
                  (constant_env (Some (sample_files 23)) (Some (sample_files 4))
                                None None))).
  exists stats_req. cbn. auto 10.
Defined.

Lemma slice_nil {A : Type} (a b : Z) : slice (@nil A) a b = [].
Proof. unfold slice. rewrite skipn_nil. apply firstn_nil. Qed.

(** X17: a refresh answered with an empty file list and an empty recent
    list leaves the counter at ['...'] and the grid at its four
    placeholders, as before any answer, while the statistics cards do
    show their texts. *)
Theorem empty_answers_look_like_loading (env : environment) (s : State)
        (stts : StatsSummary) :
  env _ [] UserFiles = Some [] ->
  env _ [Requested files_req; Resolved files_req] UserRecent = Some [] ->
  env _ [Requested files_req; Resolved files_req;
         Requested recent_req; Resolved recent_req] GlobalStats = Some stts ->
  let s' := st (snd (exec env updateImages s)) in
  images_count_text s' = images_count_text initial_state /\
  recent_grid s' = recent_grid initial_state /\
  visible_rows s' = [] /\
  size_text (stats s') = Text (stats_size stts) /\
  count_text (stats s') = Text (to_string (count stts)).
Proof.
  intros H1 H2 H3. unfold exec. rewrite updateImages_run.
  cbn [log st app]. rewrite H1. cbn zeta. cbn [app]. rewrite H2, H3.
  cbn [snd st]. repeat split.
  unfold visible_rows. cbn [images]. apply slice_nil.
Qed.

Lemma empty_answers_look_like_loading_witness :
  images_count_text
    (st (snd (exec (constant_env (Some []) (Some []) (Some sample_stats) None)
                   updateImages initial_state)))
  = "...".
Proof.
  apply (empty_answers_look_like_loading
           (constant_env (Some []) (Some []) (Some sample_stats) None)
           initial_state sample_stats eq_refl eq_refl eq_refl).
Defined.

(** ** The cards of the recent files *)

Lemma before_slash_app (t rest : string) :
  slash_free t = true -> before_slash (t ++ String "/" rest) = t.
Proof.
  induction t as [|c t IH]; intros H; [reflexivity|].
  cbn [slash_free] in H. apply andb_prop in H as [Hc Ht].
  cbn [append before_slash]. apply negb_true_iff in Hc. rewrite Hc.
  rewrite IH by assumption. reflexivity.
Qed.

Lemma before_slash_none (t : string) :
  slash_free t = true -> before_slash t = t.
Proof.
  induction t as [|c t IH]; intros H; [reflexivity|].
  cbn [slash_free] in H. apply andb_prop in H as [Hc Ht].
  cbn [before_slash]. apply negb_true_iff in Hc. rewrite Hc.
  rewrite IH by assumption. reflexivity.
Qed.

(** X18: the component of a card is decided by what stands before the
    first slash of the MIME type, whatever follows it: the audio icon when
    that is exactly ["audio"], and otherwise an element named by it
    ([image], [video], ...); a type without slash is taken whole. *)
Theorem card_component_by_type (image : FileRecord) (t rest : string) :
  slash_free t = true ->
  mimetype image = t ++ String "/" rest \/ mimetype image = t ->
  card_component image = if String.eqb t "audio" then AudioIcon else Tag t.
Proof.
  intros Ht [Hm|Hm]; unfold card_component; rewrite Hm.
  - rewrite before_slash_app by assumption. reflexivity.
  - rewrite before_slash_none by assumption. reflexivity.
Qed.

Lemma card_component_by_type_witness :
  card_component (sample_file 0) = Tag "image".
Proof.
  apply (card_component_by_type (sample_file 0) "image" "png" eq_refl).
  left. reflexivity.
Defined.

(** The grid shows one card per recent file, in order, keyed by the
    file's identifier and showing its url and name; only an empty list
    gives the four placeholders. *)
Theorem recent_grid_cards (s : State) :
  recent s <> [] ->
  recent_grid s
  = map (fun image => MediaCard (id image) (url image) (file image)
                                (card_component image)) (recent s) /\
  List.length (recent_grid s) = List.length (recent s) /\
  forall k : Z, ~ In (SkeletonBox k) (recent_grid s).
Proof.
  intros Hne. unfold recent_grid. destruct (recent s) as [|x l]; [contradiction|].
  split; [reflexivity|]. split; [apply length_map|].
  intros k Hin. apply in_map_iff in Hin. destruct Hin as [image [Heq _]].
  discriminate Heq.
Qed.

Lemma recent_grid_cards_witness :
  List.length (recent_grid {| images := []; recent := sample_files 4; page := 0;
                              stats := None; rowsPerPage := 10 |}) = 4%nat.
Proof.
  apply (proj1 (proj2 (recent_grid_cards
           {| images := []; recent := sample_files 4; page := 0;
              stats := None; rowsPerPage := 10 |}
           ltac:(discriminate)))).
Defined.

(** ** The generic table *)

(** X20: the two tables of the page show one row per entry of
    [stats.count_by_user] and of [stats.types_count], in the order
    received, each with its name and its count, under their two headers;
    they have no row while [stats] is [null]. *)
Theorem stats_tables_rows (stats : option StatsSummary) :
  head (users_table stats) = ["Name"; "Images"] /\
  head (types_table stats) = ["Type"; "Count"] /\
  body (users_table stats)
  = match stats with
    | Some st => map (fun r => [Some (VString (fst r)); Some (VNumber (snd r))])
                     (count_by_user st)
    | None => []
    end /\
  body (types_table stats)
  = match stats with
    | Some st => map (fun r => [Some (VString (fst r)); Some (VNumber (snd r))])
                     (types_count st)
    | None => []
    end.
Proof.
  unfold users_table, types_table, StatTable. cbn [head body map].
  repeat split; destruct stats as [st|]; try reflexivity;
    rewrite map_map; apply map_ext; intros [u c]; reflexivity.
Qed.
